(** * A shallow embedding of the TODO CRUD service (main.py)

    The service keeps two module-level globals, the insertion-ordered
    dictionary [todos_db] and the counter [next_id], and exposes one handler
    per HTTP route.  Handlers are embedded as computations over the pair of
    globals that either return a value or raise; what a handler wrote
    before raising stays written, as in Python. *)

From Stdlib Require Import String ZArith List Bool Lia Sorted.
From Stdlib Require Import DecimalString DecimalPos DecimalZ SpecFloat.
Import ListNotations.

Local Open Scope Z_scope.

(** ** Python values used by the service *)

(** [str(n)] for a Python int. *)
Definition py_str (n : Z) : string := NilZero.string_of_int (Z.to_int n).

(** IEEE 754 binary64, the representation of a Python float. *)
Definition prec : Z := 53.
Definition emax : Z := 1024.

(** [float(n)], rounding to nearest even. *)
Definition float_of_int (n : Z) : spec_float := binary_normalize prec emax n 0 false.

(** [a / b] on ints.  CPython converts both operands to doubles and divides
    them when each fits in 53 bits, which the length of a dictionary held in
    memory always does. *)
Definition int_truediv (a b : Z) : spec_float :=
  SFdiv prec emax (float_of_int a) (float_of_int b).

(** [x * n] for a float [x] and an int [n]: the int is converted first. *)
Definition float_mul_int (x : spec_float) (n : Z) : spec_float :=
  SFmul prec emax x (float_of_int n).

(** A number in a response body is an int or a float. *)
Inductive pynum : Type :=
| PyInt (n : Z)
| PyFloat (x : spec_float).

(** [sum(xs)] over ints. *)
Definition py_sum (xs : list Z) : Z := fold_left Z.add xs 0.

(** Index adjustment of a slice bound for a sequence of length [n]: a
    negative bound counts from the end, and the result is clamped to
    [0 .. n]. *)
Definition slice_index (n i : Z) : Z :=
  if i <? 0 then (if i + n <? 0 then 0 else i + n)
  else (if n <? i then n else i).

(** [l[start:stop]]. *)
Definition py_slice {A : Type} (l : list A) (start stop : Z) : list A :=
  let n := Z.of_nat (length l) in
  let lo := slice_index n start in
  let hi := slice_index n stop in
  firstn (Z.to_nat (hi - lo)) (skipn (Z.to_nat lo) l).

(** ** Insertion-ordered dictionaries with int keys

    An association list in insertion order.  Assigning to a key that is
    present replaces its value where it stands; assigning to a new key
    appends. *)
Section PyDict.
Context {V : Type}.

Definition pydict : Type := list (Z * V).

Fixpoint dict_get (k : Z) (d : pydict) : option V :=
  match d with
  | [] => None
  | (k', v) :: d' => if k =? k' then Some v else dict_get k d'
  end.

(** [k in d] *)
Definition dict_contains (k : Z) (d : pydict) : bool :=
  match dict_get k d with
  | Some _ => true
  | None => false
  end.

(** [d[k] = v] *)
Fixpoint dict_set (k : Z) (v : V) (d : pydict) : pydict :=
  match d with
  | [] => [(k, v)]
  | (k', v') :: d' =>
      if k =? k' then (k, v) :: d' else (k', v') :: dict_set k v d'
  end.

(** What [del d[k]] leaves when [k] is present. *)
Definition dict_remove (k : Z) (d : pydict) : pydict :=
  filter (fun e => negb (k =? fst e)) d.

Definition dict_keys (d : pydict) : list Z := map fst d.

(** [d.values()], in insertion order. *)
Definition dict_values (d : pydict) : list V := map snd d.

(** [len(d)] *)
Definition dict_len (d : pydict) : Z := Z.of_nat (length d).
End PyDict.

Arguments pydict V : clear implicits.

(** ** Models *)

(** [datetime.now()] is an input of the handler that reads the clock; a
    reading is kept as a number of microseconds. *)
Definition datetime : Type := Z.

Module TodoCreate.
Record t : Type := mk {
  title : string;
  description : option string;
  completed : bool
}.
End TodoCreate.

Module TodoUpdate.
Record t : Type := mk {
  title : option string;
  description : option string;
  completed : option bool
}.
End TodoUpdate.

(** The dictionary built by [create_todo] and kept in [todos_db]: its key
    set is fixed, so it is a record with one field per key. *)
Module Todo.
Record t : Type := mk {
  id : Z;
  title : string;
  description : option string;
  completed : bool;
  created_at : datetime
}.

Definition set_title (x : string) (r : t) : t :=
  mk (id r) x (description r) (completed r) (created_at r).
Definition set_description (x : option string) (r : t) : t :=
  mk (id r) (title r) x (completed r) (created_at r).
Definition set_completed (x : bool) (r : t) : t :=
  mk (id r) (title r) (description r) x (created_at r).
End Todo.

(** The body returned by [get_stats]. *)
Module Summary.
Record t : Type := mk {
  total_todos : Z;
  completed : Z;
  pending : Z;
  completion_percentage : pynum
}.
End Summary.

(** ** The in-memory database *)

Record store : Type := mkStore {
  todos_db : pydict Todo.t;
  next_id : Z
}.

(** The globals as the module initialises them. *)
Definition fresh : store := mkStore [] 1.

(** ** Handlers: state and exceptions *)

Inductive exn : Type :=
| HTTPException (status_code : Z) (detail : string)
| KeyError (key : Z).

Inductive outcome (A : Type) : Type :=
| Returned (a : A)
| Raised (e : exn).

Arguments Returned {A} a.
Arguments Raised {A} e.

Definition handler (A : Type) : Type := store -> outcome A * store.

Definition ret {A : Type} (a : A) : handler A := fun s => (Returned a, s).

Definition raise {A : Type} (e : exn) : handler A := fun s => (Raised e, s).

Definition bind {A B : Type} (m : handler A) (k : A -> handler B) : handler B :=
  fun s =>
    match m s with
    | (Returned a, s') => k a s'
    | (Raised e, s') => (Raised e, s')
    end.

Declare Scope handler_scope.
Delimit Scope handler_scope with handler.

Notation "x <- m ;; k" := (bind m (fun x => k))
  (at level 100, m at next level, right associativity) : handler_scope.
Notation "m ;; k" := (bind m (fun _ => k))
  (at level 100, right associativity) : handler_scope.

Local Open Scope handler_scope.

Definition read_db : handler (pydict Todo.t) := fun s => (Returned (todos_db s), s).
Definition write_db (d : pydict Todo.t) : handler unit :=
  fun s => (Returned tt, mkStore d (next_id s)).
Definition read_next_id : handler Z := fun s => (Returned (next_id s), s).
Definition write_next_id (n : Z) : handler unit :=
  fun s => (Returned tt, mkStore (todos_db s) n).

(** [todos_db[k]] *)
Definition db_getitem (k : Z) : handler Todo.t :=
  d <- read_db ;;
  match dict_get k d with
  | Some v => ret v
  | None => raise (KeyError k)
  end.

(** [todos_db[k] = v], also the effect of assigning to a key of the
    dictionary stored under [k]: every stored dictionary is referenced from
    exactly one key, the one [create_todo] put it under. *)
Definition db_setitem (k : Z) (v : Todo.t) : handler unit :=
  d <- read_db ;;
  write_db (dict_set k v d).

(** [del todos_db[k]] *)
Definition db_delitem (k : Z) : handler unit :=
  d <- read_db ;;
  if dict_contains k d then write_db (dict_remove k d) else raise (KeyError k).

Definition HTTP_404_NOT_FOUND : Z := 404.

Definition not_found_detail (todo_id : Z) : string :=
  ("TODO with id " ++ py_str todo_id ++ " not found")%string.

Definition not_found (todo_id : Z) : exn :=
  HTTPException HTTP_404_NOT_FOUND (not_found_detail todo_id).

(** ** The handlers of main.py *)

Definition get_next_id : handler Z :=
  current_id <- read_next_id ;;
  write_next_id (current_id + 1) ;;
  ret current_id.

Definition create_todo (todo : TodoCreate.t) (now : datetime) : handler Todo.t :=
  todo_id <- get_next_id ;;
  let todo_data :=
    Todo.mk todo_id (TodoCreate.title todo) (TodoCreate.description todo)
            (TodoCreate.completed todo) now in
  db_setitem todo_id todo_data ;;
  ret todo_data.

Definition read_todos (skip limit : Z) (completed : option bool)
  : handler (list Todo.t) :=
  d <- read_db ;;
  let todos_list := dict_values d in
  let todos_list :=
    match completed with
    | Some c => filter (fun todo => Bool.eqb (Todo.completed todo) c) todos_list
    | None => todos_list
    end in
  ret (py_slice todos_list skip (skip + limit)).

Definition read_todo (todo_id : Z) : handler Todo.t :=
  d <- read_db ;;
  if negb (dict_contains todo_id d) then raise (not_found todo_id)
  else db_getitem todo_id.

(** [existing_todo = todos_db[todo_id]] binds a reference to the stored
    dictionary, not a copy: [existing_todo] is the entry under [todo_id], and
    [existing_todo[key] = x] rewrites that entry where it stands. *)
Definition entry_setitem (existing_todo : Z) (assign : Todo.t -> Todo.t)
  : handler unit :=
  r <- db_getitem existing_todo ;;
  db_setitem existing_todo (assign r).

Definition update_todo (todo_id : Z) (todo_update : TodoUpdate.t)
  : handler Todo.t :=
  d <- read_db ;;
  if negb (dict_contains todo_id d) then raise (not_found todo_id)
  else
    db_getitem todo_id ;;
    let existing_todo := todo_id in
    (match TodoUpdate.title todo_update with
     | Some x => entry_setitem existing_todo (Todo.set_title x)
     | None => ret tt
     end) ;;
    (match TodoUpdate.description todo_update with
     | Some x => entry_setitem existing_todo (Todo.set_description (Some x))
     | None => ret tt
     end) ;;
    (match TodoUpdate.completed todo_update with
     | Some x => entry_setitem existing_todo (Todo.set_completed x)
     | None => ret tt
     end) ;;
    db_getitem existing_todo.

Definition delete_todo (todo_id : Z) : handler unit :=
  d <- read_db ;;
  if negb (dict_contains todo_id d) then raise (not_found todo_id)
  else db_delitem todo_id.

Definition get_stats : handler Summary.t :=
  d <- read_db ;;
  let total := dict_len d in
  let completed :=
    py_sum (map (fun _ => 1) (filter Todo.completed (dict_values d))) in
  let pending := total - completed in
  ret (Summary.mk total completed pending
         (if 0 <? total
          then PyFloat (float_mul_int (int_truediv completed total) 100)
          else PyInt 0)).

Definition delete_all_todos : handler unit :=
  write_db [].

(** The body of the root route, a constant. *)
Definition root : string * list (string * string) :=
  ("TODO CRUD API",
   [("create", "POST /todos");
    ("read_all", "GET /todos");
    ("read_one", "GET /todos/{id}");
    ("update", "PUT /todos/{id}");
    ("delete", "DELETE /todos/{id}")])%string.

(** ** Requests, responses and runs of the service *)

Inductive request : Type :=
| GetRoot
| PostTodo (todo : TodoCreate.t) (now : datetime)
| GetTodos (skip limit : Z) (completed : option bool)
| GetTodo (todo_id : Z)
| PutTodo (todo_id : Z) (todo_update : TodoUpdate.t)
| DeleteTodo (todo_id : Z)
| GetStats
| DeleteTodos.

Inductive body : Type :=
| RootBody (b : string * list (string * string))
| TodoBody (t : Todo.t)
| TodosBody (l : list Todo.t)
| StatsBody (s : Summary.t)
| NoContent.

Definition fmap {A B : Type} (f : A -> B) (m : handler A) : handler B :=
  a <- m ;; ret (f a).

(** Route dispatch. *)
Definition serve (r : request) : handler body :=
  match r with
  | GetRoot => ret (RootBody root)
  | PostTodo todo now => fmap TodoBody (create_todo todo now)
  | GetTodos skip limit completed => fmap TodosBody (read_todos skip limit completed)
  | GetTodo todo_id => fmap TodoBody (read_todo todo_id)
  | PutTodo todo_id todo_update => fmap TodoBody (update_todo todo_id todo_update)
  | DeleteTodo todo_id => fmap (fun _ => NoContent) (delete_todo todo_id)
  | GetStats => fmap StatsBody get_stats
  | DeleteTodos => fmap (fun _ => NoContent) delete_all_todos
  end.

(** The store after a request, whether it was answered or refused. *)
Definition after (r : request) (s : store) : store := snd (serve r s).

(** Serving a sequence of requests one after the other: the exchanges in
    order, and the final store. *)
Fixpoint run (rs : list request) (s : store)
  : list (request * outcome body) * store :=
  match rs with
  | [] => ([], s)
  | r :: rs' =>
      let (o, s') := serve r s in
      let (tr, s'') := run rs' s' in
      ((r, o) :: tr, s'')
  end.

(** The ids handed out by the creations of a run, in order. *)
Fixpoint created_ids (tr : list (request * outcome body)) : list Z :=
  match tr with
  | [] => []
  | (PostTodo _ _, Returned (TodoBody t)) :: tr' => Todo.id t :: created_ids tr'
  | _ :: tr' => created_ids tr'
  end.

Definition is_post (r : request) : bool :=
  match r with
  | PostTodo _ _ => true
  | _ => false
  end.

(** [first, first + 1, ..., first + n - 1] *)
Fixpoint consecutive (first : Z) (n : nat) : list Z :=
  match n with
  | O => []
  | S n' => first :: consecutive (first + 1) n'
  end.

(** Every key maps to a record carrying that key, and no key occurs twice. *)
Definition consistent (d : pydict Todo.t) : Prop :=
  NoDup (dict_keys d) /\ forall k t, In (k, t) d -> Todo.id t = k.

(** Keys stand in increasing order and below the counter. *)
Definition ordered (s : store) : Prop :=
  StronglySorted Z.lt (dict_keys (todos_db s))
  /\ Forall (fun k => k < next_id s) (dict_keys (todos_db s)).

(** ** What the specification says, in its own words *)

(** Pagination: the slice starting at 0-based offset [skip] with at most
    [limit] items. *)
Definition page {A : Type} (skip limit : Z) (l : list A) : list A :=
  firstn (Z.to_nat limit) (skipn (Z.to_nat skip) l).

(** The items a listing selects, in store order: all of them, or those whose
    [completed] equals the filter value. *)
Definition selected (completed_filter : option bool) (d : pydict Todo.t)
  : list Todo.t :=
  match completed_filter with
  | Some c => filter (fun t => Bool.eqb (Todo.completed t) c) (dict_values d)
  | None => dict_values d
  end.

(** Listing: the filter first, then the pagination. *)
Definition listing (skip limit : Z) (completed_filter : option bool)
  (d : pydict Todo.t) : list Todo.t :=
  page skip limit (selected completed_filter d).

(** The number of items of a store whose [completed] is [c]. *)
Definition count_completed (c : bool) (d : pydict Todo.t) : nat :=
  List.length (filter (fun e => Bool.eqb (Todo.completed (snd e)) c) d).

(** Partial update of a record: a provided field replaces the stored one. *)
Definition patched (u : TodoUpdate.t) (t : Todo.t) : Todo.t :=
  Todo.mk (Todo.id t)
    (match TodoUpdate.title u with Some x => x | None => Todo.title t end)
    (match TodoUpdate.description u with
     | Some x => Some x
     | None => Todo.description t
     end)
    (match TodoUpdate.completed u with Some x => x | None => Todo.completed t end)
    (Todo.created_at t).

(** ** Vocabulary for the further properties *)

(** The id a request addresses, for the three routes that take one. *)
Definition target (r : request) : option Z :=
  match r with
  | GetTodo todo_id | PutTodo todo_id _ | DeleteTodo todo_id => Some todo_id
  | _ => None
  end.

(** One request standing for two successive ones: per field the later value
    when the later request provides it, the earlier one otherwise. *)
Definition merge_update (u1 u2 : TodoUpdate.t) : TodoUpdate.t :=
  TodoUpdate.mk
    (match TodoUpdate.title u2 with Some x => Some x | None => TodoUpdate.title u1 end)
    (match TodoUpdate.description u2 with
     | Some x => Some x
     | None => TodoUpdate.description u1
     end)
    (match TodoUpdate.completed u2 with
     | Some x => Some x
     | None => TodoUpdate.completed u1
     end).

(** A request body with no field set. *)
Definition no_change : TodoUpdate.t := TodoUpdate.mk None None None.

Definition bool_to_int (b : bool) : Z := if b then 1 else 0.

(** ** Sample requests and stores *)

Definition buy_milk : TodoCreate.t := TodoCreate.mk "Buy milk" None false.

Definition mark_done : TodoUpdate.t := TodoUpdate.mk None None (Some true).

(** A fresh store after one creation. *)
Definition one_item : store := after (PostTodo buy_milk 1000) fresh.

(** A fresh store after five creations. *)
Definition five_items : store :=
  snd (run [PostTodo buy_milk 1000; PostTodo buy_milk 1001;
            PostTodo buy_milk 1002; PostTodo buy_milk 1003;
            PostTodo buy_milk 1004] fresh).

(** Two creations, the first item then marked as done. *)
Definition half_done : store :=
  snd (run [PostTodo buy_milk 1000; PostTodo buy_milk 1001;
            PutTodo 1 mark_done] fresh).

(** Three creations, the second item then marked as done. *)
Definition one_of_three : store :=
  snd (run [PostTodo buy_milk 1000; PostTodo buy_milk 1001;
            PostTodo buy_milk 1002; PutTodo 2 mark_done] fresh).

(** * Properties *)

(** ** Dictionaries *)

Section PyDictFacts.
Context {V : Type}.
Implicit Types (d : pydict V) (k : Z) (v : V).

Lemma dict_contains_true k d :
  dict_contains k d = true <-> exists v, dict_get k d = Some v.
Proof.
  unfold dict_contains. destruct (dict_get k d) as [v|]; split.
  - intros _. now exists v.
  - reflexivity.
  - discriminate.
  - intros [v Hv]. discriminate.
Qed.

Lemma dict_contains_false k d :
  dict_contains k d = false <-> dict_get k d = None.
Proof.
  unfold dict_contains. destruct (dict_get k d); split; congruence.
Qed.

Lemma dict_get_In k v d : dict_get k d = Some v -> In (k, v) d.
Proof.
  induction d as [|[k' v'] d IH]; simpl; [discriminate|].
  destruct (Z.eqb_spec k k') as [->|Hne]; intros H.
  - left. congruence.
  - right. auto.
Qed.

Lemma dict_contains_keys k d :
  dict_contains k d = true <-> In k (dict_keys d).
Proof.
  unfold dict_contains.
  induction d as [|[k' v'] d IH]; simpl.
  - split; [discriminate | tauto].
  - destruct (Z.eqb_spec k k') as [->|Hne].
    + split; auto.
    + rewrite IH. split; [tauto | intros [H|H]; congruence].
Qed.

Lemma dict_get_unique k v v' d :
  NoDup (dict_keys d) -> dict_get k d = Some v -> In (k, v') d -> v' = v.
Proof.
  induction d as [|[k0 v0] d IH]; simpl; [tauto|].
  intros Hnd Hget Hin. inversion Hnd as [|? ? Hnotin Hnd']; subst.
  destruct (Z.eqb_spec k k0) as [->|Hne].
  - destruct Hin as [Heq|Hin]; [congruence|].
    exfalso. apply Hnotin. change k0 with (fst (k0, v')).
    now apply in_map.
  - destruct Hin as [Heq|Hin]; [congruence | auto].
Qed.

Lemma dict_get_set_same k v d : dict_get k (dict_set k v d) = Some v.
Proof.
  induction d as [|[k' v'] d IH]; simpl.
  - now rewrite Z.eqb_refl.
  - destruct (Z.eqb_spec k k') as [->|Hne]; simpl.
    + now rewrite Z.eqb_refl.
    + destruct (Z.eqb_spec k k'); [contradiction | exact IH].
Qed.

Lemma dict_get_set_other k k' v d :
  k' <> k -> dict_get k' (dict_set k v d) = dict_get k' d.
Proof.
  intros Hne. induction d as [|[k0 v0] d IH]; simpl.
  - destruct (Z.eqb_spec k' k); [contradiction | reflexivity].
  - destruct (Z.eqb_spec k k0) as [->|Hk]; simpl.
    + destruct (Z.eqb_spec k' k0); [contradiction | reflexivity].
    + now rewrite IH.
Qed.

(** Assigning to a key that is present keeps every key where it is. *)
Lemma dict_keys_set_present k v d :
  dict_contains k d = true -> dict_keys (dict_set k v d) = dict_keys d.
Proof.
  unfold dict_contains.
  induction d as [|[k0 v0] d IH]; simpl; [discriminate|].
  destruct (Z.eqb_spec k k0) as [->|Hk]; simpl; intros H.
  - reflexivity.
  - now rewrite IH.
Qed.

(** Assigning to a new key appends the entry. *)
Lemma dict_set_absent k v d :
  dict_contains k d = false -> dict_set k v d = d ++ [(k, v)].
Proof.
  unfold dict_contains.
  induction d as [|[k0 v0] d IH]; simpl; [reflexivity|].
  destruct (Z.eqb_spec k k0) as [->|Hk]; intros H.
  - discriminate.
  - now rewrite IH.
Qed.

(** Storing back the value a key already has changes nothing. *)
Lemma dict_set_same_value k v d :
  dict_get k d = Some v -> dict_set k v d = d.
Proof.
  induction d as [|[k0 v0] d IH]; simpl; [discriminate|].
  destruct (Z.eqb_spec k k0) as [->|Hk]; intros H.
  - congruence.
  - now rewrite IH.
Qed.

Lemma dict_set_twice k v v' d :
  dict_set k v' (dict_set k v d) = dict_set k v' d.
Proof.
  induction d as [|[k0 v0] d IH]; simpl.
  - now rewrite Z.eqb_refl.
  - destruct (Z.eqb_spec k k0) as [->|Hk]; simpl.
    + now rewrite Z.eqb_refl.
    + destruct (Z.eqb_spec k k0); [contradiction | now rewrite IH].
Qed.

Lemma dict_set_In k v k' v' d :
  In (k', v') (dict_set k v d) -> (k' = k /\ v' = v) \/ In (k', v') d.
Proof.
  induction d as [|[k0 v0] d IH]; simpl.
  - intros [H|[]]. left. split; congruence.
  - destruct (Z.eqb_spec k k0) as [->|Hk]; simpl.
    + intros [H|H]; [left; split; congruence | right; now right].
    + intros [H|H]; [right; now left|].
      destruct (IH H) as [?|?]; [now left | right; now right].
Qed.

Lemma dict_set_NoDup k v d :
  NoDup (dict_keys d) -> NoDup (dict_keys (dict_set k v d)).
Proof.
  intros Hnd. destruct (dict_contains k d) eqn:Hc.
  - now rewrite dict_keys_set_present.
  - rewrite dict_set_absent by exact Hc.
    unfold dict_keys. rewrite map_app. simpl.
    apply NoDup_app; [exact Hnd | repeat constructor; simpl; tauto |].
    intros a Ha [<-|[]].
    apply dict_contains_keys in Ha. congruence.
Qed.

Lemma dict_get_remove_same k d : dict_get k (dict_remove k d) = None.
Proof.
  induction d as [|[k0 v0] d IH]; simpl; [reflexivity|].
  destruct (Z.eqb_spec k k0) as [->|Hk]; simpl; [exact IH|].
  destruct (Z.eqb_spec k k0); [contradiction | exact IH].
Qed.

Lemma dict_get_remove_other k k' d :
  k' <> k -> dict_get k' (dict_remove k d) = dict_get k' d.
Proof.
  intros Hne. induction d as [|[k0 v0] d IH]; simpl; [reflexivity|].
  destruct (Z.eqb_spec k k0) as [->|Hk]; simpl.
  - destruct (Z.eqb_spec k' k0); [contradiction | exact IH].
  - now rewrite IH.
Qed.

Lemma dict_remove_In k k' v' d :
  In (k', v') (dict_remove k d) <-> In (k', v') d /\ k' <> k.
Proof.
  unfold dict_remove. rewrite filter_In. simpl.
  destruct (Z.eqb_spec k k'); split; intros [H1 H2];
    try discriminate; try (split; congruence); auto.
Qed.

Lemma dict_remove_NoDup k d :
  NoDup (dict_keys d) -> NoDup (dict_keys (dict_remove k d)).
Proof.
  induction d as [|[k0 v0] d IH]; simpl; [auto|].
  intros Hnd. inversion Hnd as [|? ? Hnotin Hnd']; subst.
  destruct (Z.eqb_spec k k0); simpl; [auto|].
  constructor; [|auto].
  intros Hin. apply Hnotin.
  apply in_map_iff in Hin. destruct Hin as [[k1 v1] [Hfst Hin]].
  apply dict_remove_In in Hin. simpl in Hfst. subst k1.
  change k0 with (fst (k0, v1)). apply in_map. tauto.
Qed.
End PyDictFacts.

(** ** The effect of each handler, as one equation *)

Lemma store_eta s : mkStore (todos_db s) (next_id s) = s.
Proof. now destruct s. Qed.

Lemma create_todo_eq todo now s :
  let todo_data :=
    Todo.mk (next_id s) (TodoCreate.title todo) (TodoCreate.description todo)
            (TodoCreate.completed todo) now in
  create_todo todo now s =
    (Returned todo_data,
     mkStore (dict_set (next_id s) todo_data (todos_db s)) (next_id s + 1)).
Proof. reflexivity. Qed.

Lemma read_todos_eq skip limit c s :
  read_todos skip limit c s =
    (Returned
       (py_slice
          (match c with
           | Some b => filter (fun todo => Bool.eqb (Todo.completed todo) b)
                         (dict_values (todos_db s))
           | None => dict_values (todos_db s)
           end) skip (skip + limit)), s).
Proof. reflexivity. Qed.

Lemma read_todo_eq todo_id s :
  read_todo todo_id s =
    (match dict_get todo_id (todos_db s) with
     | Some t => Returned t
     | None => Raised (not_found todo_id)
     end, s).
Proof.
  unfold read_todo, db_getitem, bind, read_db, dict_contains; simpl.
  destruct (dict_get todo_id (todos_db s)) eqn:Hget; simpl;
    now rewrite ?Hget.
Qed.

Lemma update_todo_eq todo_id u s :
  update_todo todo_id u s =
    match dict_get todo_id (todos_db s) with
    | Some t =>
        (Returned (patched u t),
         mkStore (dict_set todo_id (patched u t) (todos_db s)) (next_id s))
    | None => (Raised (not_found todo_id), s)
    end.
Proof.
  destruct s as [d n]. destruct u as [ut ud uc].
  unfold update_todo, entry_setitem, db_getitem, db_setitem, bind, read_db,
    write_db, dict_contains, patched; simpl.
  destruct (dict_get todo_id d) as [t|] eqn:Hget; simpl; [|reflexivity].
  destruct ut as [x|], ud as [y|], uc as [z|]; simpl;
    repeat (rewrite ?Hget, ?dict_get_set_same, ?dict_set_twice; simpl);
    try reflexivity.
  destruct t; simpl. now rewrite (dict_set_same_value _ _ _ Hget).
Qed.

Lemma delete_todo_eq todo_id s :
  delete_todo todo_id s =
    if dict_contains todo_id (todos_db s)
    then (Returned tt, mkStore (dict_remove todo_id (todos_db s)) (next_id s))
    else (Raised (not_found todo_id), s).
Proof.
  unfold delete_todo, db_delitem, bind, read_db, write_db; simpl.
  destruct (dict_contains todo_id (todos_db s)) eqn:Hc; simpl;
    now rewrite ?Hc.
Qed.

Lemma delete_all_todos_eq s :
  delete_all_todos s = (Returned tt, mkStore [] (next_id s)).
Proof. reflexivity. Qed.

(** The counter after a request: a creation adds one, nothing else moves it. *)
Lemma after_next_id r s :
  next_id (after r s) = if is_post r then next_id s + 1 else next_id s.
Proof.
  unfold after. destruct r as [|todo now|skip limit c|k|k u|k| |]; simpl;
    unfold fmap, bind; try reflexivity.
  - rewrite read_todo_eq. now destruct (dict_get k (todos_db s)).
  - rewrite update_todo_eq. now destruct (dict_get k (todos_db s)).
  - rewrite delete_todo_eq. now destruct (dict_contains k (todos_db s)).
Qed.

(** The dictionary after a request. *)
Lemma after_todos_db r s :
  todos_db (after r s) =
    match r with
    | PostTodo todo now =>
        dict_set (next_id s)
          (Todo.mk (next_id s) (TodoCreate.title todo)
             (TodoCreate.description todo) (TodoCreate.completed todo) now)
          (todos_db s)
    | PutTodo k u =>
        match dict_get k (todos_db s) with
        | Some t => dict_set k (patched u t) (todos_db s)
        | None => todos_db s
        end
    | DeleteTodo k => dict_remove k (todos_db s)
    | DeleteTodos => []
    | _ => todos_db s
    end.
Proof.
  unfold after. destruct r as [|todo now|skip limit c|k|k u|k| |]; simpl;
    unfold fmap, bind; try reflexivity.
  - rewrite read_todo_eq. now destruct (dict_get k (todos_db s)).
  - rewrite update_todo_eq. now destruct (dict_get k (todos_db s)).
  - rewrite delete_todo_eq.
    destruct (dict_contains k (todos_db s)) eqn:Hc; simpl; [reflexivity|].
    unfold dict_remove. symmetry. apply forallb_filter_id.
    apply forallb_forall. intros [k0 v0] Hin. simpl.
    destruct (Z.eqb_spec k k0) as [->|]; [|reflexivity].
    assert (In k0 (dict_keys (todos_db s))) as Hk
      by (change k0 with (fst (k0, v0)); now apply in_map).
    apply dict_contains_keys in Hk. congruence.
Qed.

Lemma run_cons r rs s :
  run (r :: rs) s =
    ((r, fst (serve r s)) :: fst (run rs (after r s)), snd (run rs (after r s))).
Proof.
  unfold after. simpl. destruct (serve r s) as [o s'].
  simpl. now destruct (run rs s').
Qed.

(** ** Id allocation *)

Lemma consecutive_lower first n x : In x (consecutive first n) -> first <= x.
Proof.
  revert first. induction n as [|n IH]; simpl; intros first; [tauto|].
  intros [<-|H]; [lia|]. apply IH in H. lia.
Qed.

Lemma consecutive_sorted first n : StronglySorted Z.lt (consecutive first n).
Proof.
  revert first. induction n as [|n IH]; simpl; intros first; constructor.
  - apply IH.
  - apply Forall_forall. intros x Hx. apply consecutive_lower in Hx. lia.
Qed.

Lemma sorted_lt_NoDup l : StronglySorted Z.lt l -> NoDup l.
Proof.
  induction 1 as [|a l Hs IH Hall]; constructor; [|exact IH].
  intros Hin. rewrite Forall_forall in Hall. specialize (Hall a Hin). lia.
Qed.

Lemma serve_post_returns todo now s :
  fst (serve (PostTodo todo now) s) =
    Returned (TodoBody
      (Todo.mk (next_id s) (TodoCreate.title todo)
         (TodoCreate.description todo) (TodoCreate.completed todo) now)).
Proof. reflexivity. Qed.

(** From any store, the creations of a run receive the counter's value and
    its successors, and the counter ends that many steps further. *)
Lemma run_created_ids rs s :
  created_ids (fst (run rs s)) =
    consecutive (next_id s) (List.length (filter is_post rs))
  /\ next_id (snd (run rs s)) =
       next_id s + Z.of_nat (List.length (filter is_post rs)).
Proof.
  revert s. induction rs as [|r rs IH]; intros s.
  - simpl. split; [reflexivity | lia].
  - rewrite run_cons. cbn [fst snd].
    destruct (IH (after r s)) as [IHids IHnext].
    rewrite IHnext, after_next_id.
    destruct r as [|todo now|skip limit c|k|k u|k| |];
      cbn [filter is_post List.length consecutive created_ids];
      try rewrite serve_post_returns; cbn [created_ids Todo.id];
      rewrite IHids, after_next_id; cbn [is_post];
      try (split; [reflexivity | lia]).
    all: split; [destruct (fst (serve _ s)) as [[]|]; reflexivity | lia].
Qed.

(** C1: from a fresh store and through any sequence of requests, the ids
    given by the creations are 1, 2, 3, ... in order, hence strictly
    increasing and without repetition whatever was deleted in between; and
    no request ever lowers the allocation counter. *)
Theorem created_ids_increase_and_are_never_reused (rs : list request) :
  let ids := created_ids (fst (run rs fresh)) in
  ids = consecutive 1 (List.length (filter is_post rs))
  /\ StronglySorted Z.lt ids
  /\ NoDup ids
  /\ (forall r s, next_id s <= next_id (after r s))
  /\ (forall r s, is_post r = false -> next_id (after r s) = next_id s).
Proof.
  intros ids. subst ids.
  destruct (run_created_ids rs fresh) as [-> _]. simpl next_id.
  split; [reflexivity|].
  split; [apply consecutive_sorted|].
  split; [apply sorted_lt_NoDup, consecutive_sorted|].
  split; intros r s; rewrite after_next_id.
  - destruct (is_post r); lia.
  - now intros ->.
Qed.

(** ** Keys and the records under them *)

Lemma patched_id u t : Todo.id (patched u t) = Todo.id t.
Proof. reflexivity. Qed.

Lemma after_consistent r s :
  consistent (todos_db s) -> consistent (todos_db (after r s)).
Proof.
  intros [Hnd Hid]. rewrite after_todos_db.
  destruct r as [|todo now|skip limit c|k|k u|k| |]; try (split; assumption).
  - split; [now apply dict_set_NoDup|].
    intros k t Hin. apply dict_set_In in Hin.
    destruct Hin as [[-> ->]|Hin]; [reflexivity | auto].
  - destruct (dict_get k (todos_db s)) as [t0|] eqn:Hget; [|split; assumption].
    split; [now apply dict_set_NoDup|].
    intros k' t Hin. apply dict_set_In in Hin.
    destruct Hin as [[-> ->]|Hin]; [|auto].
    rewrite patched_id. apply Hid. now apply dict_get_In.
  - split; [now apply dict_remove_NoDup|].
    intros k' t Hin. apply dict_remove_In in Hin. apply Hid. tauto.
  - split; [constructor | intros k t []].
Qed.

Lemma run_consistent rs s :
  consistent (todos_db s) -> consistent (todos_db (snd (run rs s))).
Proof.
  revert s. induction rs as [|r rs IH]; intros s Hs; [exact Hs|].
  rewrite run_cons. cbn [snd]. apply IH. now apply after_consistent.
Qed.

Lemma fresh_consistent : consistent (todos_db fresh).
Proof. split; [constructor | intros k t []]. Qed.

(** C2: in the store reached from a fresh one by any sequence of requests,
    no key occurs twice, every entry's record carries its key as [id], and so
    a key that is present maps to exactly one record, whose [id] is that
    key. *)
Theorem stored_record_carries_its_key (rs : list request) :
  let d := todos_db (snd (run rs fresh)) in
  NoDup (dict_keys d)
  /\ (forall k t, In (k, t) d -> Todo.id t = k)
  /\ (forall k, dict_contains k d = true ->
        exists t, dict_get k d = Some t /\ Todo.id t = k
                  /\ forall t', In (k, t') d -> t' = t).
Proof.
  intros d. destruct (run_consistent rs fresh fresh_consistent) as [Hnd Hid].
  fold d in Hnd, Hid.
  split; [exact Hnd|]. split; [exact Hid|].
  intros k Hc. apply dict_contains_true in Hc. destruct Hc as [t Hget].
  exists t. split; [exact Hget|]. split.
  - apply Hid. now apply dict_get_In.
  - intros t' Hin. now apply (dict_get_unique k t t' d).
Qed.


(** ** Partial update *)

(** C3: when [todo_id] is present, [update_todo] returns the record now
    stored under it, in which every provided field holds the request's value
    and every omitted field, [id] and [created_at] hold what they held before;
    no other entry, no key position and not the counter change. *)
Theorem update_todo_overwrites_provided_fields_only
  (s : store) (todo_id : Z) (u : TodoUpdate.t) (t : Todo.t) :
  dict_get todo_id (todos_db s) = Some t ->
  exists t' s',
    update_todo todo_id u s = (Returned t', s')
    /\ dict_get todo_id (todos_db s') = Some t'
    /\ (forall x, TodoUpdate.title u = Some x -> Todo.title t' = x)
    /\ (TodoUpdate.title u = None -> Todo.title t' = Todo.title t)
    /\ (forall x, TodoUpdate.description u = Some x ->
          Todo.description t' = Some x)
    /\ (TodoUpdate.description u = None ->
          Todo.description t' = Todo.description t)
    /\ (forall x, TodoUpdate.completed u = Some x -> Todo.completed t' = x)
    /\ (TodoUpdate.completed u = None -> Todo.completed t' = Todo.completed t)
    /\ Todo.id t' = Todo.id t
    /\ Todo.created_at t' = Todo.created_at t
    /\ (forall k, k <> todo_id ->
          dict_get k (todos_db s') = dict_get k (todos_db s))
    /\ dict_keys (todos_db s') = dict_keys (todos_db s)
    /\ next_id s' = next_id s.
Proof.
  intros Hget. rewrite update_todo_eq, Hget.
  eexists. eexists. split; [reflexivity|]. cbn [todos_db next_id].
  split; [apply dict_get_set_same|].
  unfold patched; cbn [Todo.title Todo.description Todo.completed Todo.id
                         Todo.created_at].
  repeat split; try (intros x ->; reflexivity); try (intros ->; reflexivity).
  - intros k Hk. now apply dict_get_set_other.
  - apply dict_keys_set_present. apply dict_contains_true. now exists t.
Qed.

Lemma update_todo_overwrites_provided_fields_only_witness :
  exists t', fst (update_todo 1 mark_done one_item) = Returned t'
    /\ Todo.completed t' = true
    /\ Todo.title t' = "Buy milk"%string
    /\ Todo.description t' = None
    /\ Todo.id t' = 1
    /\ Todo.created_at t' = 1000.
Proof.
  destruct (update_todo_overwrites_provided_fields_only one_item 1 mark_done
              (Todo.mk 1 "Buy milk" None false 1000) eq_refl)
    as (t' & s' & Hrun & _ & _ & Ht & _ & Hd & Hc & _ & Hid & Hat & _).
  exists t'. rewrite Hrun.
  split; [reflexivity|].
  split; [now apply Hc|].
  split; [now apply Ht|].
  split; [now apply Hd|].
  split; assumption.
Defined.

(** ** Listing *)

(** With non-negative bounds the slice [l[skip:skip + limit]] drops [skip]
    items and keeps at most [limit]. *)
Lemma py_slice_page {A : Type} (l : list A) skip limit :
  0 <= skip -> 0 <= limit -> py_slice l skip (skip + limit) = page skip limit l.
Proof.
  intros Hs Hl. unfold py_slice, page, slice_index.
  set (n := Z.of_nat (List.length l)).
  destruct (Z.ltb_spec skip 0); [lia|].
  destruct (Z.ltb_spec (skip + limit) 0); [lia|].
  destruct (Z.ltb_spec n skip) as [Hlt|Hge].
  - destruct (Z.ltb_spec n (skip + limit)); [|lia].
    rewrite Z.sub_diag. simpl.
    rewrite (skipn_all2 (n := Z.to_nat skip)) by (subst n; lia).
    now rewrite firstn_nil.
  - destruct (Z.ltb_spec n (skip + limit)) as [Hlt|Hge'].
    + rewrite !firstn_all2; try reflexivity;
        rewrite length_skipn; subst n; lia.
    + f_equal. lia.
Qed.

Lemma page_beyond {A : Type} (l : list A) skip limit :
  Z.of_nat (List.length l) <= skip -> page skip limit l = [].
Proof.
  intros H. unfold page.
  rewrite (skipn_all2 (n := Z.to_nat skip)) by lia. apply firstn_nil.
Qed.

Lemma sorted_lt_snoc l n :
  StronglySorted Z.lt l -> Forall (fun k => k < n) l ->
  StronglySorted Z.lt (l ++ [n]).
Proof.
  induction 1 as [|a l Hs IH Hall]; intros Hn; simpl.
  - repeat constructor.
  - inversion Hn; subst. constructor; [auto|].
    apply Forall_app. split; [exact Hall | now repeat constructor].
Qed.

Lemma dict_keys_remove {V : Type} k (d : pydict V) :
  dict_keys (dict_remove k d) = filter (fun k' => negb (k =? k')) (dict_keys d).
Proof.
  induction d as [|[k0 v0] d IH]; simpl; [reflexivity|].
  destruct (k =? k0); simpl; now rewrite IH.
Qed.

Lemma sorted_lt_filter f l :
  StronglySorted Z.lt l -> StronglySorted Z.lt (filter f l).
Proof.
  induction 1 as [|a l Hs IH Hall]; simpl; [constructor|].
  destruct (f a); [|exact IH].
  constructor; [exact IH|].
  rewrite Forall_forall in *. intros x Hx. apply filter_In in Hx. now apply Hall.
Qed.

Lemma after_ordered r s : ordered s -> ordered (after r s).
Proof.
  intros [Hs Hb]. unfold ordered. rewrite after_todos_db, after_next_id.
  destruct r as [|todo now|skip limit c|k|k u|k| |]; cbn [is_post];
    try (split; assumption).
  - assert (dict_contains (next_id s) (todos_db s) = false) as Habs.
    { destruct (dict_contains (next_id s) (todos_db s)) eqn:Hc; [|reflexivity].
      apply dict_contains_keys in Hc. rewrite Forall_forall in Hb.
      specialize (Hb _ Hc). lia. }
    rewrite dict_set_absent by exact Habs.
    unfold dict_keys in *. rewrite map_app. simpl. split.
    + now apply sorted_lt_snoc.
    + apply Forall_app. split; [|repeat constructor; lia].
      eapply Forall_impl; [|exact Hb]. simpl. intros; lia.
  - destruct (dict_get k (todos_db s)) as [t|] eqn:Hget; [|split; assumption].
    rewrite dict_keys_set_present
      by (apply dict_contains_true; now exists t).
    split; assumption.
  - rewrite dict_keys_remove. split; [now apply sorted_lt_filter|].
    rewrite Forall_forall in *. intros x Hx. apply filter_In in Hx.
    now apply Hb.
  - split; constructor.
Qed.

Lemma run_ordered rs s : ordered s -> ordered (snd (run rs s)).
Proof.
  revert s. induction rs as [|r rs IH]; intros s Hs; [exact Hs|].
  rewrite run_cons. cbn [snd]. apply IH. now apply after_ordered.
Qed.

Lemma consistent_ids d :
  consistent d -> map Todo.id (dict_values d) = dict_keys d.
Proof.
  intros [_ Hid]. unfold dict_values, dict_keys. rewrite map_map.
  apply map_ext_in. intros [k t] Hin. simpl. now apply Hid.
Qed.

(** In a store reached from a fresh one, the items stand in the order of
    their ids, which is the order of their creation. *)
Lemma reachable_in_creation_order rs :
  StronglySorted Z.lt
    (map Todo.id (dict_values (todos_db (snd (run rs fresh))))).
Proof.
  rewrite consistent_ids by (apply run_consistent, fresh_consistent).
  apply run_ordered. split; constructor.
Qed.

(** C4: for non-negative [skip] and [limit], [read_todos] returns the items in
    store order, filtered on [completed] first when a filter is given, then
    cut to at most [limit] items from offset [skip]; it returns nothing when
    [skip] reaches past the filtered items; it leaves the store as it was; and
    in a store reached from a fresh one the store order is the creation
    order. *)
Theorem read_todos_filters_then_paginates
  (s : store) (skip limit : Z) (c : option bool) :
  0 <= skip -> 0 <= limit ->
  read_todos skip limit c s = (Returned (listing skip limit c (todos_db s)), s)
  /\ listing skip limit c (todos_db s) =
       firstn (Z.to_nat limit)
         (skipn (Z.to_nat skip)
            (match c with
             | Some b => filter (fun t => Bool.eqb (Todo.completed t) b)
                           (map snd (todos_db s))
             | None => map snd (todos_db s)
             end))
  /\ (Z.of_nat (List.length (selected c (todos_db s))) <= skip ->
        listing skip limit c (todos_db s) = [])
  /\ (forall rs, s = snd (run rs fresh) ->
        StronglySorted Z.lt (map Todo.id (dict_values (todos_db s)))).
Proof.
  intros Hs Hl. split; [|split; [|split]].
  - rewrite read_todos_eq. unfold listing, selected.
    now rewrite py_slice_page.
  - now destruct c.
  - intros Hlen. now apply page_beyond.
  - intros rs ->. apply reachable_in_creation_order.
Qed.

Lemma read_todos_filters_then_paginates_witness :
  fst (read_todos 2 2 None five_items) =
    Returned [Todo.mk 3 "Buy milk" None false 1002;
              Todo.mk 4 "Buy milk" None false 1003].
Proof.
  rewrite (proj1 (read_todos_filters_then_paginates five_items 2 2 None
                    ltac:(lia) ltac:(lia))).
  reflexivity.
Defined.

(** ** Statistics *)

Lemma fold_add_ones (l : list Z) acc :
  Forall (fun x => x = 1) l ->
  fold_left Z.add l acc = acc + Z.of_nat (List.length l).
Proof.
  revert acc. induction l as [|x l IH]; intros acc Hall; simpl.
  - lia.
  - inversion Hall; subst. rewrite IH by assumption. lia.
Qed.

Lemma py_sum_ones {A : Type} (l : list A) :
  py_sum (map (fun _ => 1) l) = Z.of_nat (List.length l).
Proof.
  unfold py_sum. rewrite fold_add_ones.
  - now rewrite length_map.
  - apply Forall_forall. intros x Hx. apply in_map_iff in Hx.
    now destruct Hx as [_ [<- _]].
Qed.

Lemma count_completed_values c d :
  List.length (filter (fun t => Bool.eqb (Todo.completed t) c) (dict_values d))
  = count_completed c d.
Proof.
  unfold count_completed, dict_values.
  induction d as [|[k t] d IH]; simpl; [reflexivity|].
  destruct (Bool.eqb (Todo.completed t) c); simpl; now rewrite IH.
Qed.

Lemma count_completed_split d :
  (count_completed true d + count_completed false d)%nat = List.length d.
Proof.
  unfold count_completed.
  induction d as [|[k t] d IH]; simpl; [reflexivity|].
  destruct (Todo.completed t); simpl; lia.
Qed.

Lemma filter_completed_eqb (l : list Todo.t) :
  filter Todo.completed l = filter (fun t => Bool.eqb (Todo.completed t) true) l.
Proof.
  apply filter_ext. intros t. now destruct (Todo.completed t).
Qed.

(** C5: [get_stats] leaves the store as it was and returns the number of
    entries as the total, the number of entries with [completed] true as
    completed, their difference (the number with [completed] false) as
    pending, and as percentage the int 0 for an empty store and otherwise the
    float [completed / total * 100]. *)
Theorem get_stats_counts_the_store (s : store) :
  exists b,
    get_stats s = (Returned b, s)
    /\ Summary.total_todos b = Z.of_nat (List.length (todos_db s))
    /\ Summary.completed b = Z.of_nat (count_completed true (todos_db s))
    /\ Summary.pending b = Summary.total_todos b - Summary.completed b
    /\ Summary.pending b = Z.of_nat (count_completed false (todos_db s))
    /\ Summary.completion_percentage b =
         if Summary.total_todos b =? 0 then PyInt 0
         else PyFloat
                (SFmul prec emax
                   (SFdiv prec emax (float_of_int (Summary.completed b))
                      (float_of_int (Summary.total_todos b)))
                   (float_of_int 100)).
Proof.
  eexists. split; [reflexivity|].
  cbn [Summary.total_todos Summary.completed Summary.pending
         Summary.completion_percentage].
  rewrite py_sum_ones, filter_completed_eqb, count_completed_values.
  unfold dict_len.
  pose proof (count_completed_split (todos_db s)) as Hsplit.
  repeat split; try lia.
  destruct (Z.ltb_spec 0 (Z.of_nat (List.length (todos_db s))));
    destruct (Z.eqb_spec (Z.of_nat (List.length (todos_db s))) 0);
    try lia; reflexivity.
Qed.

(** The two bodies the specification lists: an empty store, and two items of
    which one is done, where the percentage is the float 50.0. *)
Example get_stats_empty :
  fst (get_stats fresh) = Returned (Summary.mk 0 0 0 (PyInt 0)).
Proof. reflexivity. Qed.

Example get_stats_half_done :
  fst (get_stats half_done) =
    Returned (Summary.mk 2 1 1 (PyFloat (float_of_int 50))).
Proof. vm_compute. reflexivity. Qed.

(** One item done out of three: the quotient is rounded before it is scaled,
    which gives 33.33333333333333 (the double next below 100 / 3). *)
Example get_stats_one_of_three :
  fst (get_stats one_of_three) =
    Returned (Summary.mk 3 1 2
                (PyFloat (S754_finite false 4691249611844266 (-47)))).
Proof. vm_compute. reflexivity. Qed.

(** ** Reading, deleting and the refusals *)

Example not_found_detail_1 :
  not_found_detail 1 = "TODO with id 1 not found"%string.
Proof. reflexivity. Qed.

(** C6: [read_todo] is refused, with status 404 and the detail
    [TODO with id {todo_id} not found], exactly when [todo_id] is absent;
    when present it returns the stored record; either way the store is as it
    was. *)
Theorem read_todo_not_found_iff_absent (s : store) (todo_id : Z) :
  (dict_contains todo_id (todos_db s) = false <->
     fst (read_todo todo_id s) =
       Raised (HTTPException 404
                 ("TODO with id " ++ py_str todo_id ++ " not found")))
  /\ (dict_contains todo_id (todos_db s) = false <->
        exists e, fst (read_todo todo_id s) = Raised e)
  /\ (forall t, dict_get todo_id (todos_db s) = Some t ->
        fst (read_todo todo_id s) = Returned t)
  /\ snd (read_todo todo_id s) = s.
Proof.
  rewrite read_todo_eq. cbn [fst snd]. unfold dict_contains.
  destruct (dict_get todo_id (todos_db s)) as [t|]; repeat split;
    try discriminate; try reflexivity.
  - intros [e He]. discriminate.
  - intros t' [= ->]. reflexivity.
  - intros _. now eexists.
Qed.

(** Where keys are unique, removing a present key takes out its one entry
    and leaves the others in place. *)
Lemma dict_remove_split {V : Type} k (v : V) (d : pydict V) :
  NoDup (dict_keys d) -> dict_get k d = Some v ->
  exists d1 d2, d = d1 ++ (k, v) :: d2 /\ dict_remove k d = d1 ++ d2.
Proof.
  induction d as [|[k0 v0] d IH]; simpl; [discriminate|].
  intros Hnd Hget. inversion Hnd as [|? ? Hnotin Hnd']; subst.
  destruct (Z.eqb_spec k k0) as [->|Hne]; simpl.
  - injection Hget as ->. exists [], d. split; [reflexivity|].
    simpl. apply forallb_filter_id. apply forallb_forall.
    intros [k1 v1] Hin. simpl.
    destruct (Z.eqb_spec k0 k1) as [<-|]; [|reflexivity].
    exfalso. apply Hnotin. change k0 with (fst (k0, v1)). now apply in_map.
  - destruct (IH Hnd' Hget) as (d1 & d2 & -> & Hrem).
    exists ((k0, v0) :: d1), d2. split; [reflexivity|].
    simpl. now rewrite <- Hrem.
Qed.

(** C7: [delete_todo] is refused with the 404 when [todo_id] is absent;
    otherwise it returns nothing and takes the key out of the dictionary,
    leaving every other key with its record, the counter as it was and,
    keys being unique, every other entry in its place; a [read_todo] of the
    same id is then refused with the 404. *)
Theorem delete_todo_removes_that_entry (s : store) (todo_id : Z) :
  (dict_contains todo_id (todos_db s) = false ->
     delete_todo todo_id s = (Raised (not_found todo_id), s))
  /\ (forall t, dict_get todo_id (todos_db s) = Some t ->
        exists s',
          delete_todo todo_id s = (Returned tt, s')
          /\ dict_contains todo_id (todos_db s') = false
          /\ (forall k, k <> todo_id ->
                dict_get k (todos_db s') = dict_get k (todos_db s))
          /\ next_id s' = next_id s
          /\ (NoDup (dict_keys (todos_db s)) ->
                exists d1 d2, todos_db s = d1 ++ (todo_id, t) :: d2
                              /\ todos_db s' = d1 ++ d2)
          /\ read_todo todo_id s' = (Raised (not_found todo_id), s')).
Proof.
  rewrite delete_todo_eq. split.
  - now intros ->.
  - intros t Hget.
    assert (dict_contains todo_id (todos_db s) = true) as ->
      by (apply dict_contains_true; now exists t).
    eexists. split; [reflexivity|]. cbn [todos_db next_id].
    split; [apply dict_contains_false, dict_get_remove_same|].
    split; [intros k Hk; now apply dict_get_remove_other|].
    split; [reflexivity|].
    split; [intros Hnd; now apply dict_remove_split|].
    rewrite read_todo_eq. cbn [todos_db].
    now rewrite dict_get_remove_same.
Qed.

Lemma py_slice_nil {A : Type} start stop : py_slice (@nil A) start stop = [].
Proof. unfold py_slice. now rewrite skipn_nil, firstn_nil. Qed.

(** C8: [delete_all_todos] always returns, leaves an empty dictionary, so
    that any listing is then empty, and leaves the counter as it was: the
    next creation receives the id the counter held before, which after [n]
    creations from a fresh store is [n + 1]. *)
Theorem delete_all_todos_keeps_the_counter (s : store) :
  exists s',
    delete_all_todos s = (Returned tt, s')
    /\ todos_db s' = []
    /\ next_id s' = next_id s
    /\ (forall skip limit c, read_todos skip limit c s' = (Returned [], s'))
    /\ (forall todo now, exists t s'',
          create_todo todo now s' = (Returned t, s'')
          /\ Todo.id t = next_id s
          /\ next_id s'' = next_id s + 1
          /\ (forall rs, s = snd (run rs fresh) ->
                Todo.id t = 1 + Z.of_nat (List.length (filter is_post rs)))).
Proof.
  eexists. split; [reflexivity|]. cbn [todos_db next_id].
  repeat split.
  - intros skip limit c. rewrite read_todos_eq. cbn [todos_db].
    destruct c; simpl; now rewrite py_slice_nil.
  - intros todo now. rewrite create_todo_eq. cbn [todos_db next_id].
    eexists. eexists. split; [reflexivity|].
    cbn [Todo.id next_id]. repeat split.
    intros rs ->. destruct (run_created_ids rs fresh) as [_ ->].
    reflexivity.
Qed.

(** C9: a refusal by [read_todo], [update_todo] or [delete_todo] is the 404
    for an absent id, and with it all three leave the store, dictionary and
    counter, exactly as it was. *)
Theorem not_found_leaves_the_store_unchanged
  (s : store) (todo_id : Z) (u : TodoUpdate.t) (e : exn) :
  fst (read_todo todo_id s) = Raised e
  \/ fst (update_todo todo_id u s) = Raised e
  \/ fst (delete_todo todo_id s) = Raised e ->
  e = not_found todo_id
  /\ dict_contains todo_id (todos_db s) = false
  /\ read_todo todo_id s = (Raised e, s)
  /\ update_todo todo_id u s = (Raised e, s)
  /\ delete_todo todo_id s = (Raised e, s).
Proof.
  rewrite read_todo_eq, update_todo_eq, delete_todo_eq.
  unfold dict_contains.
  destruct (dict_get todo_id (todos_db s)) as [t|]; cbn [fst].
  - intros [H|[H|H]]; discriminate.
  - intros [H|[H|H]]; injection H as <-; repeat split.
Qed.

Lemma not_found_leaves_the_store_unchanged_witness :
  update_todo 7 mark_done one_item = (Raised (not_found 7), one_item)
  /\ delete_todo 7 one_item = (Raised (not_found 7), one_item).
Proof.
  destruct (not_found_leaves_the_store_unchanged one_item 7 mark_done
              (not_found 7) (or_introl eq_refl))
    as (_ & _ & _ & Hu & Hd).
  split; assumption.
Defined.

(** C10: a record whose [description] is null after [update_todo], be it
    the one returned or any one stored, had a null [description] before: a
    null in the request is taken as an omitted field, so no request clears
    a description. *)
Theorem update_todo_never_clears_description
  (s : store) (todo_id : Z) (u : TodoUpdate.t) (k : Z) (t' : Todo.t) :
  dict_get k (todos_db (snd (update_todo todo_id u s))) = Some t' ->
  Todo.description t' = None ->
  (exists t, dict_get k (todos_db s) = Some t /\ Todo.description t = None)
  /\ (forall r, fst (update_todo todo_id u s) = Returned r ->
        Todo.description r = None ->
        exists t, dict_get todo_id (todos_db s) = Some t
                  /\ Todo.description t = None).
Proof.
  rewrite update_todo_eq.
  destruct (dict_get todo_id (todos_db s)) as [t|] eqn:Hget; cbn [fst snd todos_db].
  - intros Hk Hnone. split.
    + destruct (Z.eq_dec k todo_id) as [->|Hne].
      * rewrite dict_get_set_same in Hk. injection Hk as <-.
        exists t. split; [exact Hget|].
        unfold patched in Hnone. cbn [Todo.description] in Hnone.
        now destruct (TodoUpdate.description u).
      * rewrite dict_get_set_other in Hk by exact Hne. now exists t'.
    + intros r [= <-] Hr. exists t. split; [reflexivity|].
      unfold patched in Hr. cbn [Todo.description] in Hr.
      now destruct (TodoUpdate.description u).
  - intros Hk Hnone. split; [now exists t' | discriminate].
Qed.

Lemma update_todo_never_clears_description_witness :
  exists t, dict_get 1 (todos_db one_item) = Some t
            /\ Todo.description t = None.
Proof.
  exact (proj1 (update_todo_never_clears_description one_item 1
                  (TodoUpdate.mk (Some "Buy oat milk"%string) None None) 1
                  (Todo.mk 1 "Buy oat milk" None false 1000)
                  eq_refl eq_refl)).
Defined.

(** * Further properties of the handlers *)

(** ** Creation *)

(** X1: whatever the store, [create_todo] returns a record built from the
    request, the counter's value and the clock reading; [read_todo] of the
    returned id then gives back that very record; and every other key keeps
    what it had. *)
Theorem create_todo_then_read_todo
  (s : store) (todo : TodoCreate.t) (now : datetime) :
  exists t s',
    create_todo todo now s = (Returned t, s')
    /\ read_todo (Todo.id t) s' = (Returned t, s')
    /\ Todo.id t = next_id s
    /\ Todo.title t = TodoCreate.title todo
    /\ Todo.description t = TodoCreate.description todo
    /\ Todo.completed t = TodoCreate.completed todo
    /\ Todo.created_at t = now
    /\ (forall k, k <> next_id s ->
          dict_get k (todos_db s') = dict_get k (todos_db s)).
Proof.
  rewrite create_todo_eq. eexists. eexists. split; [reflexivity|].
  cbn [Todo.id Todo.title Todo.description Todo.completed Todo.created_at
         todos_db].
  split.
  - rewrite read_todo_eq. cbn [todos_db]. now rewrite dict_get_set_same.
  - repeat split. intros k Hk. now apply dict_get_set_other.
Qed.

Lemma fresh_ordered : ordered fresh.
Proof. split; constructor. Qed.

Lemma ordered_counter_absent s :
  ordered s -> dict_contains (next_id s) (todos_db s) = false.
Proof.
  intros [_ Hb].
  destruct (dict_contains (next_id s) (todos_db s)) eqn:Hc; [|reflexivity].
  apply dict_contains_keys in Hc. rewrite Forall_forall in Hb.
  specialize (Hb _ Hc). lia.
Qed.

(** X2: in a store reached from a fresh one the counter's value is never a
    key, so [create_todo] overwrites nothing: it appends one entry after all
    the others, which stay as they were. *)
Theorem create_todo_appends_in_reachable_store
  (rs : list request) (todo : TodoCreate.t) (now : datetime) :
  let s := snd (run rs fresh) in
  dict_contains (next_id s) (todos_db s) = false
  /\ exists t s',
       create_todo todo now s = (Returned t, s')
       /\ todos_db s' = todos_db s ++ [(next_id s, t)]
       /\ dict_values (todos_db s') = dict_values (todos_db s) ++ [t]
       /\ dict_len (todos_db s') = dict_len (todos_db s) + 1.
Proof.
  intros s.
  assert (dict_contains (next_id s) (todos_db s) = false) as Habs
    by (apply ordered_counter_absent, run_ordered, fresh_ordered).
  split; [exact Habs|].
  rewrite create_todo_eq. eexists. eexists. split; [reflexivity|].
  cbn [todos_db]. rewrite dict_set_absent by exact Habs.
  split; [reflexivity|]. split.
  - unfold dict_values. now rewrite map_app.
  - unfold dict_len. rewrite length_app. simpl. lia.
Qed.

(** ** What a reachable store holds *)

Lemma after_keys_positive r s :
  0 < next_id s -> Forall (fun k => 0 < k) (dict_keys (todos_db s)) ->
  Forall (fun k => 0 < k) (dict_keys (todos_db (after r s))).
Proof.
  intros Hn Hpos. rewrite Forall_forall in *.
  intros k Hk. apply dict_contains_keys, dict_contains_true in Hk.
  destruct Hk as [t Hget]. revert Hget. rewrite after_todos_db.
  assert (forall v, dict_get k (todos_db s) = Some v -> 0 < k) as Hold.
  { intros v Hv. apply Hpos, dict_contains_keys, dict_contains_true.
    now exists v. }
  destruct r as [|todo now|skip limit c|k0|k0 u|k0| |]; try apply Hold.
  - destruct (Z.eq_dec k (next_id s)) as [->|Hne]; [intros _; exact Hn|].
    rewrite dict_get_set_other by exact Hne. apply Hold.
  - destruct (dict_get k0 (todos_db s)) as [t0|] eqn:H0; [|apply Hold].
    destruct (Z.eq_dec k k0) as [->|Hne]; [intros _; now apply (Hold t0)|].
    rewrite dict_get_set_other by exact Hne. apply Hold.
  - destruct (Z.eq_dec k k0) as [->|Hne].
    + now rewrite dict_get_remove_same.
    + rewrite dict_get_remove_other by exact Hne. apply Hold.
  - discriminate.
Qed.

Lemma run_keys_positive rs s :
  0 < next_id s -> Forall (fun k => 0 < k) (dict_keys (todos_db s)) ->
  Forall (fun k => 0 < k) (dict_keys (todos_db (snd (run rs s)))).
Proof.
  revert s. induction rs as [|r rs IH]; intros s Hn Hpos; [exact Hpos|].
  rewrite run_cons. cbn [snd]. apply IH.
  - rewrite after_next_id. destruct (is_post r); lia.
  - now apply after_keys_positive.
Qed.

Lemma sorted_lt_length l lo hi :
  StronglySorted Z.lt l -> Forall (fun k => lo <= k < hi) l ->
  Z.of_nat (List.length l) <= Z.max 0 (hi - lo).
Proof.
  intros Hs. revert lo. induction Hs as [|a l Hs IH Hall]; intros lo Hr.
  - simpl. lia.
  - inversion Hr as [|? ? Ha Hr']; subst.
    assert (Forall (fun k => a + 1 <= k < hi) l) as Hr''.
    { rewrite Forall_forall in *. intros x Hx.
      specialize (Hall x Hx). specialize (Hr' x Hx). lia. }
    specialize (IH (a + 1) Hr''). cbn [List.length]. lia.
Qed.

(** X3: in a store reached from a fresh one every key lies between 1 and
    the counter, excluded, and the store holds no more items than creations
    were served. *)
Theorem reachable_keys_lie_below_the_counter (rs : list request) :
  let s := snd (run rs fresh) in
  (forall k, dict_contains k (todos_db s) = true -> 1 <= k < next_id s)
  /\ dict_len (todos_db s) <= next_id s - 1
  /\ next_id s - 1 = Z.of_nat (List.length (filter is_post rs)).
Proof.
  intros s.
  destruct (run_ordered rs fresh fresh_ordered) as [Hsorted Hbelow].
  assert (Forall (fun k => 0 < k) (dict_keys (todos_db s))) as Hpos
    by (apply run_keys_positive; [reflexivity | constructor]).
  fold s in Hsorted, Hbelow.
  assert (Forall (fun k => 1 <= k < next_id s) (dict_keys (todos_db s)))
    as Hrange.
  { rewrite Forall_forall in *. intros k Hk.
    specialize (Hpos k Hk). specialize (Hbelow k Hk). lia. }
  split; [|split].
  - intros k Hk. apply dict_contains_keys in Hk.
    rewrite Forall_forall in Hrange. now apply Hrange.
  - pose proof (sorted_lt_length _ _ _ Hsorted Hrange) as Hlen.
    unfold dict_len, dict_keys in *. rewrite length_map in Hlen.
    destruct (run_created_ids rs fresh) as [_ Hn]. fold s in Hn.
    simpl next_id in Hn. lia.
  - destruct (run_created_ids rs fresh) as [_ Hn]. fold s in Hn.
    simpl next_id in Hn. lia.
Qed.

(** ** The life of an item *)

(** A record found under a key other than the counter's value after a
    request was under that key before it, with the same [id] and
    [created_at]. *)
Lemma after_inherits r s k t' :
  k <> next_id s -> dict_get k (todos_db (after r s)) = Some t' ->
  exists t, dict_get k (todos_db s) = Some t
            /\ Todo.id t' = Todo.id t
            /\ Todo.created_at t' = Todo.created_at t.
Proof.
  intros Hk. rewrite after_todos_db.
  assert (dict_get k (todos_db s) = Some t' ->
          exists t, dict_get k (todos_db s) = Some t
                    /\ Todo.id t' = Todo.id t
                    /\ Todo.created_at t' = Todo.created_at t) as Hsame
    by (intros H; exists t'; auto).
  destruct r as [|todo now|skip limit c|k0|k0 u|k0| |]; try exact Hsame.
  - now rewrite dict_get_set_other.
  - destruct (dict_get k0 (todos_db s)) as [t0|] eqn:H0; [|exact Hsame].
    destruct (Z.eq_dec k k0) as [->|Hne].
    + rewrite dict_get_set_same. intros [= <-]. exists t0. auto.
    + now rewrite dict_get_set_other.
  - destruct (Z.eq_dec k k0) as [->|Hne].
    + now rewrite dict_get_remove_same.
    + now rewrite dict_get_remove_other.
  - discriminate.
Qed.

Lemma run_next_id_le rs s : next_id s <= next_id (snd (run rs s)).
Proof.
  destruct (run_created_ids rs s) as [_ ->]. lia.
Qed.

Lemma run_inherits rs s k t' :
  k < next_id s -> dict_get k (todos_db (snd (run rs s))) = Some t' ->
  exists t, dict_get k (todos_db s) = Some t
            /\ Todo.id t' = Todo.id t
            /\ Todo.created_at t' = Todo.created_at t.
Proof.
  revert s. induction rs as [|r rs IH]; intros s Hk.
  - simpl. intros H. exists t'. auto.
  - rewrite run_cons. cbn [snd]. intros H.
    apply IH in H.
    + destruct H as (t1 & H1 & Hid1 & Hat1).
      apply after_inherits in H1; [|lia].
      destruct H1 as (t & Hget & Hid & Hat).
      exists t. repeat split; congruence.
    + rewrite after_next_id. destruct (is_post r); lia.
Qed.

Lemma reachable_key_below_counter rs k :
  dict_contains k (todos_db (snd (run rs fresh))) = true ->
  k < next_id (snd (run rs fresh)).
Proof.
  intros Hk. apply dict_contains_keys in Hk.
  destruct (run_ordered rs fresh fresh_ordered) as [_ Hb].
  rewrite Forall_forall in Hb. now apply Hb.
Qed.

(** X4: once an item of a store reached from a fresh one has been deleted,
    its id stays absent whatever requests follow: [read_todo] of it is
    refused with the 404 from then on. *)
Theorem deleted_id_stays_absent (rs1 rs2 : list request) (k : Z) :
  dict_contains k (todos_db (snd (run rs1 fresh))) = true ->
  let s' := snd (run rs2 (after (DeleteTodo k) (snd (run rs1 fresh)))) in
  dict_contains k (todos_db s') = false
  /\ read_todo k s' = (Raised (not_found k), s').
Proof.
  intros Hk s'.
  assert (dict_get k (todos_db s') = None) as Hnone.
  { destruct (dict_get k (todos_db s')) as [t'|] eqn:Hget; [|reflexivity].
    apply run_inherits in Hget.
    - destruct Hget as (t & Hget & _). rewrite after_todos_db in Hget.
      now rewrite dict_get_remove_same in Hget.
    - rewrite after_next_id. cbn [is_post].
      now apply reachable_key_below_counter. }
  split; [now apply dict_contains_false|].
  rewrite read_todo_eq. now rewrite Hnone.
Qed.

Lemma deleted_id_stays_absent_witness :
  fst (read_todo 1
         (snd (run [PostTodo buy_milk 1002; PutTodo 1 mark_done;
                    DeleteTodos; PostTodo buy_milk 1003]
                 (after (DeleteTodo 1) half_done))))
  = Raised (not_found 1).
Proof.
  exact (f_equal fst
           (proj2 (deleted_id_stays_absent
                     [PostTodo buy_milk 1000; PostTodo buy_milk 1001;
                      PutTodo 1 mark_done]
                     [PostTodo buy_milk 1002; PutTodo 1 mark_done;
                      DeleteTodos; PostTodo buy_milk 1003]
                     1 eq_refl))).
Defined.

(** X5: an item found under the same id at two moments of a run from a
    fresh store has the same [id] and [created_at] at both: no sequence of
    requests alters them, nor puts another item under that id. *)
Theorem id_and_created_at_never_change
  (rs1 rs2 : list request) (k : Z) (t t' : Todo.t) :
  dict_get k (todos_db (snd (run rs1 fresh))) = Some t ->
  dict_get k (todos_db (snd (run rs2 (snd (run rs1 fresh))))) = Some t' ->
  Todo.id t' = Todo.id t /\ Todo.created_at t' = Todo.created_at t.
Proof.
  intros Hbefore Hafter. apply run_inherits in Hafter.
  - destruct Hafter as (t0 & Hget & Hid & Hat).
    rewrite Hbefore in Hget. injection Hget as <-. now split.
  - apply reachable_key_below_counter, dict_contains_true. now exists t.
Qed.

Lemma id_and_created_at_never_change_witness :
  Todo.id (Todo.mk 1 "Buy milk" None true 1000) = 1
  /\ Todo.created_at (Todo.mk 1 "Buy milk" None true 1000) = 1000.
Proof.
  exact (id_and_created_at_never_change
           [PostTodo buy_milk 1000]
           [PostTodo buy_milk 1001; PutTodo 1 mark_done] 1
           (Todo.mk 1 "Buy milk" None false 1000)
           (Todo.mk 1 "Buy milk" None true 1000) eq_refl eq_refl).
Defined.

(** ** Updates and deletions compose *)

Lemma patched_merge u1 u2 t :
  patched u2 (patched u1 t) = patched (merge_update u1 u2) t.
Proof.
  destruct u1 as [a1 b1 c1], u2 as [a2 b2 c2], t as [i ti de co cr].
  unfold patched, merge_update. simpl.
  now destruct a2, b2, c2, a1, b1, c1.
Qed.

(** X6: two successive [update_todo] of one id amount to a single one
    carrying, per field, the later value when the later request provides it
    and the earlier one otherwise: same answer, same store.  This holds
    whether or not the id is present. *)
Theorem update_todo_twice_is_the_merged_update
  (s : store) (todo_id : Z) (u1 u2 : TodoUpdate.t) :
  update_todo todo_id u2 (snd (update_todo todo_id u1 s)) =
    update_todo todo_id (merge_update u1 u2) s.
Proof.
  rewrite (update_todo_eq todo_id u1 s).
  destruct (dict_get todo_id (todos_db s)) as [t|] eqn:Hget; cbn [snd].
  - rewrite !update_todo_eq. cbn [todos_db next_id].
    rewrite dict_get_set_same, Hget, dict_set_twice.
    now rewrite patched_merge.
  - rewrite !update_todo_eq. now rewrite Hget.
Qed.

(** X7: [update_todo] is idempotent: sending the same request a second
    time gives the same answer and leaves the store as the first left it. *)
Theorem update_todo_is_idempotent
  (s : store) (todo_id : Z) (u : TodoUpdate.t) :
  update_todo todo_id u (snd (update_todo todo_id u s)) =
    update_todo todo_id u s.
Proof.
  rewrite (update_todo_eq todo_id u s).
  destruct (dict_get todo_id (todos_db s)) as [t|] eqn:Hget; cbn [snd].
  - rewrite update_todo_eq. cbn [todos_db next_id].
    rewrite dict_get_set_same, dict_set_twice.
    replace (patched u (patched u t)) with (patched u t); [reflexivity|].
    rewrite patched_merge. destruct u as [a b c]. unfold merge_update. simpl.
    now destruct a, b, c.
  - rewrite update_todo_eq. now rewrite Hget.
Qed.

(** X8: an [update_todo] whose request sets no field behaves as
    [read_todo]: the stored record is returned, or the 404 raised, and the
    store is as it was. *)
Theorem update_todo_without_fields_is_read_todo (s : store) (todo_id : Z) :
  update_todo todo_id no_change s = read_todo todo_id s.
Proof.
  rewrite update_todo_eq, read_todo_eq.
  destruct (dict_get todo_id (todos_db s)) as [t|] eqn:Hget; [|reflexivity].
  replace (patched no_change t) with t by now destruct t.
  rewrite (dict_set_same_value _ _ _ Hget). now rewrite store_eta.
Qed.

Lemma dict_remove_comm {V : Type} a b (d : pydict V) :
  dict_remove a (dict_remove b d) = dict_remove b (dict_remove a d).
Proof.
  unfold dict_remove. induction d as [|[k v] d IH]; simpl; [reflexivity|].
  destruct (a =? k) eqn:Ha, (b =? k) eqn:Hb; simpl;
    rewrite ?Ha, ?Hb; simpl; now rewrite IH.
Qed.

Lemma dict_remove_absent {V : Type} k (d : pydict V) :
  dict_contains k d = false -> dict_remove k d = d.
Proof.
  intros Hc. unfold dict_remove. apply forallb_filter_id, forallb_forall.
  intros [k0 v0] Hin. simpl.
  destruct (Z.eqb_spec k k0) as [->|]; [|reflexivity].
  assert (In k0 (dict_keys d)) as Hk
    by (change k0 with (fst (k0, v0)); now apply in_map).
  apply dict_contains_keys in Hk. congruence.
Qed.

(** The store [delete_todo] leaves, refused or not. *)
Lemma delete_todo_store k s :
  snd (delete_todo k s) = mkStore (dict_remove k (todos_db s)) (next_id s).
Proof.
  rewrite delete_todo_eq.
  destruct (dict_contains k (todos_db s)) eqn:Hc; [reflexivity|].
  cbn [snd]. rewrite dict_remove_absent by exact Hc. now rewrite store_eta.
Qed.

(** X9: a second [delete_todo] of the same id is always refused with the
    404 and changes nothing, and deletions of two ids leave the same store in
    either order. *)
Theorem delete_todo_repeated_and_reordered (s : store) (a b : Z) :
  delete_todo a (snd (delete_todo a s)) =
    (Raised (not_found a), snd (delete_todo a s))
  /\ snd (delete_todo a (snd (delete_todo b s))) =
       snd (delete_todo b (snd (delete_todo a s))).
Proof.
  pose proof delete_todo_store as Hsnd.
  split.
  - rewrite (delete_todo_eq a (snd (delete_todo a s))), Hsnd.
    cbn [todos_db next_id].
    assert (dict_contains a (dict_remove a (todos_db s)) = false) as ->
      by apply dict_contains_false, dict_get_remove_same.
    reflexivity.
  - rewrite !Hsnd. cbn [todos_db next_id]. now rewrite dict_remove_comm.
Qed.

(** ** Refusals *)

(** X10: whatever the request and the store, the only exception a handler
    raises is the 404 of a request addressing an absent id, and the store is
    then left as it was; [KeyError] is never raised, and the root, creation,
    listing, statistics and delete-all routes are never refused. *)
Theorem only_not_found_is_raised (r : request) (s : store) (e : exn) :
  fst (serve r s) = Raised e ->
  exists todo_id,
    target r = Some todo_id
    /\ e = HTTPException 404 (not_found_detail todo_id)
    /\ dict_contains todo_id (todos_db s) = false
    /\ snd (serve r s) = s.
Proof.
  destruct r as [|todo now|skip limit c|k|k u|k| |]; cbn [serve target];
    unfold fmap, bind; try discriminate.
  - rewrite read_todo_eq.
    destruct (dict_get k (todos_db s)) eqn:Hget; [discriminate|].
    intros [= <-]. exists k. repeat split. now apply dict_contains_false.
  - rewrite update_todo_eq.
    destruct (dict_get k (todos_db s)) eqn:Hget; [discriminate|].
    intros [= <-]. exists k. repeat split. now apply dict_contains_false.
  - rewrite delete_todo_eq.
    destruct (dict_contains k (todos_db s)) eqn:Hc; [discriminate|].
    intros [= <-]. exists k. repeat split. exact Hc.
Qed.

Lemma only_not_found_is_raised_witness :
  exists todo_id,
    target (DeleteTodo 3) = Some todo_id
    /\ not_found 3 = HTTPException 404 (not_found_detail todo_id)
    /\ dict_contains todo_id (todos_db half_done) = false
    /\ snd (serve (DeleteTodo 3) half_done) = half_done.
Proof.
  exact (only_not_found_is_raised (DeleteTodo 3) half_done (not_found 3)
           eq_refl).
Defined.

(** ** Pages *)

Lemma firstn_plus {A : Type} (n m : nat) (l : list A) :
  firstn (n + m) l = firstn n l ++ firstn m (skipn n l).
Proof.
  revert l. induction n as [|n IH]; intros l; [reflexivity|].
  destruct l as [|x l]; simpl.
  - now rewrite firstn_nil.
  - now rewrite IH.
Qed.

Lemma read_todos_selected skip limit c s :
  read_todos skip limit c s =
    (Returned (py_slice (selected c (todos_db s)) skip (skip + limit)), s).
Proof. rewrite read_todos_eq. now destruct c. Qed.

(** X11: with non-negative bounds, the page of [a] items at offset [skip]
    followed by the page of [b] items at offset [skip + a] is the page of
    [a + b] items at offset [skip]: successive pages neither overlap nor
    leave a gap. *)
Theorem read_todos_pages_tile
  (s : store) (skip a b : Z) (c : option bool) :
  0 <= skip -> 0 <= a -> 0 <= b ->
  exists p1 p2,
    read_todos skip a c s = (Returned p1, s)
    /\ read_todos (skip + a) b c s = (Returned p2, s)
    /\ read_todos skip (a + b) c s = (Returned (p1 ++ p2), s).
Proof.
  intros Hs Ha Hb. rewrite !read_todos_selected.
  rewrite !py_slice_page by lia.
  eexists. eexists. split; [reflexivity|]. split; [reflexivity|].
  unfold page. do 2 f_equal.
  rewrite (Z2Nat.inj_add a b) by lia. rewrite firstn_plus.
  f_equal. rewrite skipn_skipn. do 2 f_equal. lia.
Qed.

Lemma read_todos_pages_tile_witness :
  read_todos 1 3 None five_items =
    (Returned ([Todo.mk 2 "Buy milk" None false 1001]
               ++ [Todo.mk 3 "Buy milk" None false 1002;
                   Todo.mk 4 "Buy milk" None false 1003]), five_items).
Proof.
  destruct (read_todos_pages_tile five_items 1 1 2 None
              ltac:(lia) ltac:(lia) ltac:(lia))
    as (p1 & p2 & H1 & H2 & H).
  injection H1 as <-. injection H2 as <-. exact H.
Defined.

(** X12: with non-negative bounds the listing has exactly [limit] items,
    or as many as remain past the offset when these are fewer. *)
Theorem read_todos_page_length
  (s : store) (skip limit : Z) (c : option bool) :
  0 <= skip -> 0 <= limit ->
  exists p,
    read_todos skip limit c s = (Returned p, s)
    /\ Z.of_nat (List.length p) =
         Z.min limit
           (Z.max 0 (Z.of_nat (List.length (selected c (todos_db s))) - skip)).
Proof.
  intros Hs Hl. rewrite read_todos_selected, py_slice_page by lia.
  eexists. split; [reflexivity|].
  unfold page. rewrite length_firstn, length_skipn. lia.
Qed.

Lemma read_todos_page_length_witness :
  exists p,
    read_todos 3 10 None five_items = (Returned p, five_items)
    /\ Z.of_nat (List.length p) = 2.
Proof.
  exact (read_todos_page_length five_items 3 10 None ltac:(lia) ltac:(lia)).
Defined.

(** X13: whatever the bounds, negative ones included, the listing is one
    unbroken run of the selected items in store order: it never holds an item
    that is not stored or that fails the filter, never repeats or reorders,
    and the store is left as it was. *)
Theorem read_todos_returns_a_block
  (s : store) (skip limit : Z) (c : option bool) :
  exists p before behind,
    read_todos skip limit c s = (Returned p, s)
    /\ selected c (todos_db s) = before ++ p ++ behind
    /\ (forall t, In t p ->
          In t (dict_values (todos_db s))
          /\ forall b, c = Some b -> Todo.completed t = b).
Proof.
  rewrite read_todos_selected. unfold py_slice.
  set (l := selected c (todos_db s)).
  set (lo := Z.to_nat (slice_index (Z.of_nat (List.length l)) skip)).
  set (m := Z.to_nat (slice_index (Z.of_nat (List.length l)) (skip + limit)
                      - slice_index (Z.of_nat (List.length l)) skip)).
  exists (firstn m (skipn lo l)), (firstn lo l), (skipn m (skipn lo l)).
  split; [reflexivity|].
  assert (l = firstn lo l ++ firstn m (skipn lo l) ++ skipn m (skipn lo l))
    as Hsplit by now rewrite !firstn_skipn.
  split; [exact Hsplit|].
  intros t Hin.
  assert (In t l) as Hl.
  { rewrite Hsplit. apply in_or_app. right. apply in_or_app. now left. }
  subst l. unfold selected in Hl. destruct c as [b|].
  - apply filter_In in Hl. destruct Hl as [Hv Hb]. split; [exact Hv|].
    intros b' [= <-]. now apply Bool.eqb_prop.
  - split; [exact Hl | discriminate].
Qed.

(** X14: a negative [limit] is not refused.  With a non-negative [skip] the
    listing is empty as long as [skip + limit] is not negative; once it is,
    the slice bound counts from the end: the last [-(skip + limit)] selected
    items are left out, and then the first [skip]. *)
Theorem read_todos_negative_limit
  (s : store) (skip limit : Z) (c : option bool) :
  0 <= skip -> limit < 0 ->
  let l := selected c (todos_db s) in
  read_todos skip limit c s =
    (Returned
       (if 0 <=? skip + limit then []
        else skipn (Z.to_nat skip)
               (firstn (Z.to_nat (Z.of_nat (List.length l) + (skip + limit))) l)),
     s).
Proof.
  intros Hs Hl l. rewrite read_todos_selected. fold l. do 2 f_equal.
  unfold py_slice, slice_index.
  set (n := Z.of_nat (List.length l)).
  destruct (Z.ltb_spec skip 0); [lia|].
  destruct (Z.leb_spec 0 (skip + limit)) as [Hnn|Hneg].
  - destruct (Z.ltb_spec (skip + limit) 0); [lia|].
    destruct (Z.ltb_spec n skip), (Z.ltb_spec n (skip + limit));
      try lia; match goal with
               | |- firstn (Z.to_nat ?d) _ = _ =>
                   replace (Z.to_nat d) with 0%nat by lia
               end; reflexivity.
  - destruct (Z.ltb_spec (skip + limit) 0); [|lia].
    destruct (Z.ltb_spec (skip + limit + n) 0) as [Hu|Hu].
    + replace (Z.to_nat (n + (skip + limit))) with 0%nat by lia.
      simpl firstn at 2. rewrite skipn_nil.
      destruct (Z.ltb_spec n skip);
        match goal with
        | |- firstn (Z.to_nat ?d) _ = _ =>
            replace (Z.to_nat d) with 0%nat by lia
        end; reflexivity.
    + destruct (Z.ltb_spec n skip) as [Hbig|Hsmall].
      * replace (Z.to_nat (skip + limit + n - n)) with 0%nat by lia.
        simpl. symmetry. apply skipn_all2.
        rewrite length_firstn. subst n. lia.
      * destruct (Z.le_gt_cases (skip + limit + n) skip) as [Hle|Hgt].
        -- replace (Z.to_nat (skip + limit + n - skip)) with 0%nat by lia.
           simpl. symmetry. apply skipn_all2.
           rewrite length_firstn. lia.
        -- rewrite firstn_skipn_comm. do 2 f_equal. lia.
Qed.

Lemma read_todos_negative_limit_witness :
  read_todos 0 (-1) None five_items =
    (Returned [Todo.mk 1 "Buy milk" None false 1000;
               Todo.mk 2 "Buy milk" None false 1001;
               Todo.mk 3 "Buy milk" None false 1002;
               Todo.mk 4 "Buy milk" None false 1003], five_items).
Proof.
  exact (read_todos_negative_limit five_items 0 (-1) None
           ltac:(lia) ltac:(lia)).
Defined.

(** X15: a negative [skip] is not refused either.  When it does not reach
    before the first selected item, the offset counts from the end; the page
    then holds [limit] items as long as [skip + limit] is negative, but
    [limit - n] items, none unless [limit] exceeds the number [n] of selected
    items, once [skip + limit] is zero or more: asking for the last [k]
    items with [skip = -k] and [limit = k] returns nothing. *)
Theorem read_todos_negative_skip
  (s : store) (skip limit : Z) (c : option bool) :
  skip < 0 -> 0 <= limit ->
  - Z.of_nat (List.length (selected c (todos_db s))) <= skip ->
  let l := selected c (todos_db s) in
  let n := Z.of_nat (List.length l) in
  read_todos skip limit c s =
    (Returned
       (page (n + skip) (if skip + limit <? 0 then limit else limit - n) l),
     s).
Proof.
  intros Hs Hl Hn l n. rewrite read_todos_selected. fold l. do 2 f_equal.
  unfold py_slice, slice_index, page. fold n. fold l in Hn. fold n in Hn.
  destruct (Z.ltb_spec skip 0); [|lia].
  destruct (Z.ltb_spec (skip + n) 0); [lia|].
  replace (Z.to_nat (skip + n)) with (Z.to_nat (n + skip)) by lia.
  destruct (Z.ltb_spec (skip + limit) 0) as [Hneg|Hnn].
  - destruct (Z.ltb_spec (skip + limit + n) 0); [lia|].
    do 2 f_equal. lia.
  - destruct (Z.ltb_spec n (skip + limit)) as [Hbig|Hsmall].
    + rewrite !firstn_all2; try reflexivity;
        rewrite length_skipn; subst n; lia.
    + do 2 f_equal. lia.
Qed.

Lemma read_todos_negative_skip_witness :
  read_todos (-2) 2 None five_items = (Returned [], five_items).
Proof.
  exact (read_todos_negative_skip five_items (-2) 2 None
           ltac:(lia) ltac:(lia) ltac:(simpl; lia)).
Defined.

(** ** Statistics and the other routes *)

Lemma get_stats_eq s :
  exists p,
    get_stats s =
      (Returned
         (Summary.mk (Z.of_nat (List.length (todos_db s)))
            (Z.of_nat (count_completed true (todos_db s)))
            (Z.of_nat (List.length (todos_db s))
             - Z.of_nat (count_completed true (todos_db s))) p), s).
Proof.
  unfold get_stats, bind, read_db, ret. cbn beta iota.
  rewrite py_sum_ones, filter_completed_eqb, count_completed_values.
  unfold dict_len. eexists. reflexivity.
Qed.

Lemma selected_length b d :
  List.length (selected (Some b) d) = count_completed b d.
Proof. apply count_completed_values. Qed.

Lemma count_completed_le b (d : pydict Todo.t) :
  (count_completed b d <= List.length d)%nat.
Proof. unfold count_completed. apply filter_length_le. Qed.

(** X16: the statistics agree with the listings: [completed] is the number
    of items the listing filtered on [completed = true] returns when its
    limit is the total, [pending] the number for [completed = false], and both
    lie between zero and the total. *)
Theorem get_stats_agrees_with_read_todos (s : store) :
  exists b done todo,
    get_stats s = (Returned b, s)
    /\ read_todos 0 (Summary.total_todos b) (Some true) s = (Returned done, s)
    /\ read_todos 0 (Summary.total_todos b) (Some false) s = (Returned todo, s)
    /\ Summary.completed b = Z.of_nat (List.length done)
    /\ Summary.pending b = Z.of_nat (List.length todo)
    /\ 0 <= Summary.completed b <= Summary.total_todos b
    /\ 0 <= Summary.pending b <= Summary.total_todos b.
Proof.
  destruct (get_stats_eq s) as [p ->].
  eexists. eexists. eexists. split; [reflexivity|].
  cbn [Summary.total_todos Summary.completed Summary.pending].
  rewrite !read_todos_selected, !py_slice_page by lia.
  split; [reflexivity|]. split; [reflexivity|].
  pose proof (count_completed_split (todos_db s)) as Hsplit.
  pose proof (count_completed_le true (todos_db s)) as Ht.
  pose proof (count_completed_le false (todos_db s)) as Hf.
  unfold page. change (Z.to_nat 0) with 0%nat. cbn [skipn].
  rewrite !firstn_all2 by (rewrite selected_length; lia).
  rewrite !selected_length. lia.
Qed.

Lemma count_completed_app b (d1 d2 : pydict Todo.t) :
  count_completed b (d1 ++ d2) = (count_completed b d1 + count_completed b d2)%nat.
Proof. unfold count_completed. now rewrite filter_app, length_app. Qed.

Lemma count_completed_one k t :
  Z.of_nat (count_completed true [(k, t)]) = bool_to_int (Todo.completed t).
Proof. unfold count_completed. simpl. now destruct (Todo.completed t). Qed.

(** X17: in a store reached from a fresh one, a creation raises the total
    of the statistics by one and a deletion that is served lowers it by one;
    [completed] moves by one with them exactly when the item created or
    deleted is a completed one. *)
Theorem get_stats_follows_create_and_delete (rs : list request) :
  let s := snd (run rs fresh) in
  exists b,
    get_stats s = (Returned b, s)
    /\ (forall todo now, exists b',
          fst (get_stats (after (PostTodo todo now) s)) = Returned b'
          /\ Summary.total_todos b' = Summary.total_todos b + 1
          /\ Summary.completed b' =
               Summary.completed b + bool_to_int (TodoCreate.completed todo))
    /\ (forall k t, dict_get k (todos_db s) = Some t -> exists b',
          fst (get_stats (after (DeleteTodo k) s)) = Returned b'
          /\ Summary.total_todos b' = Summary.total_todos b - 1
          /\ Summary.completed b' =
               Summary.completed b - bool_to_int (Todo.completed t)).
Proof.
  intros s. destruct (get_stats_eq s) as [p ->].
  eexists. split; [reflexivity|].
  cbn [Summary.total_todos Summary.completed]. split.
  - intros todo now.
    destruct (get_stats_eq (after (PostTodo todo now) s)) as [p' ->].
    eexists. split; [reflexivity|].
    cbn [Summary.total_todos Summary.completed].
    rewrite after_todos_db.
    rewrite dict_set_absent
      by (apply ordered_counter_absent, run_ordered, fresh_ordered).
    rewrite length_app, count_completed_app, !Nat2Z.inj_add,
      count_completed_one.
    cbn [Todo.completed List.length]. lia.
  - intros k t Hget.
    destruct (get_stats_eq (after (DeleteTodo k) s)) as [p' ->].
    eexists. split; [reflexivity|].
    cbn [Summary.total_todos Summary.completed].
    rewrite after_todos_db.
    destruct (run_consistent rs fresh fresh_consistent) as [Hnd _].
    destruct (dict_remove_split k t (todos_db s) Hnd Hget)
      as (d1 & d2 & Hd & Hrem).
    rewrite Hrem, Hd.
    change ((k, t) :: d2) with ([(k, t)] ++ d2).
    rewrite !length_app, !count_completed_app, !Nat2Z.inj_add,
      count_completed_one.
    cbn [List.length]. lia.
Qed.

(** ** The detail of a refusal *)

Lemma string_length_append (x y : string) :
  String.length (x ++ y) = (String.length x + String.length y)%nat.
Proof. induction x as [|a x IH]; simpl; [reflexivity | now rewrite IH]. Qed.

Lemma string_append_cancel_r (x y z : string) :
  (x ++ z = y ++ z)%string -> x = y.
Proof.
  revert y. induction x as [|a x IH]; intros [|b y] H; simpl in H.
  - reflexivity.
  - apply (f_equal String.length) in H. simpl in H.
    rewrite string_length_append in H. lia.
  - apply (f_equal String.length) in H. simpl in H.
    rewrite string_length_append in H. lia.
  - injection H as -> H. f_equal. now apply IH.
Qed.

Lemma to_int_proper (n : Z) :
  Z.to_int n <> Decimal.Pos Decimal.Nil /\ Z.to_int n <> Decimal.Neg Decimal.Nil.
Proof.
  destruct n as [|p|p]; simpl; split; try discriminate;
    intros [= H]; now apply (Unsigned.to_uint_nonnil p).
Qed.

(** Reading the decimal text of an int gives the int back. *)
Lemma py_str_parses (n : Z) :
  option_map Z.of_int (NilZero.int_of_string (py_str n)) = Some n.
Proof.
  unfold py_str. destruct (to_int_proper n) as [Hp Hn].
  rewrite NilZero.isi by assumption. simpl. now rewrite DecimalZ.of_to.
Qed.

(** X18: the detail of the 404 names the id without ambiguity: two details
    are the same text only for the same id, negative ids included. *)
Theorem not_found_detail_identifies_the_id (a b : Z) :
  not_found_detail a = not_found_detail b <-> a = b.
Proof.
  split; [|now intros ->].
  unfold not_found_detail. intros H.
  cbn [String.append] in H.
  repeat match type of H with
         | String _ _ = String _ _ => injection H as H
         end.
  apply string_append_cancel_r in H.
  apply (f_equal (fun x => option_map Z.of_int (NilZero.int_of_string x))) in H.
  rewrite !py_str_parses in H. now injection H.
Qed.
